(** * Verification of scripts/validate-claude-md.py (claude-md-creator skill)

    Shallow embedding of the CLAUDE.md validator.  Document text is a
    Rocq [string]; every character is read as the Unicode code point of
    the same number (0..255), which is the range the character classes
    below ([\s], [\w], [\d], [str.lower], [str.strip]) are written for. *)

From Stdlib Require Import Bool Arith Lia List Ascii String.
From Stdlib Require Import Numbers.DecimalString.
Import ListNotations.
Open Scope string_scope.
Open Scope nat_scope.

(* ------------------------------------------------------------------ *)
(** ** Python string primitives *)

Module Py.

Local Open Scope nat_scope.

Definition code (c : ascii) : nat := nat_of_ascii c.

(** [str.isspace] / [\s] on code points 0..255:
    \t \n \v \f \r, \x1c-\x1f, space, \x85, \xa0. *)
Definition is_space (c : ascii) : bool :=
  let n := code c in
  ((9 <=? n) && (n <=? 13)) || ((28 <=? n) && (n <=? 32))
  || (n =? 133) || (n =? 160).

(** [\d]: Unicode decimal digits; on 0..255 only '0'..'9'. *)
Definition is_digit (c : ascii) : bool :=
  let n := code c in (48 <=? n) && (n <=? 57).

(** [\w]: alphanumeric (isalpha, isdecimal, isdigit, isnumeric) or '_'. *)
Definition is_word (c : ascii) : bool :=
  let n := code c in
  ((48 <=? n) && (n <=? 57)) || ((65 <=? n) && (n <=? 90))
  || ((97 <=? n) && (n <=? 122)) || (n =? 95)
  || (n =? 170) || (n =? 178) || (n =? 179) || (n =? 181) || (n =? 185)
  || (n =? 186) || ((188 <=? n) && (n <=? 190))
  || ((192 <=? n) && (n <=? 214)) || ((216 <=? n) && (n <=? 246))
  || ((248 <=? n) && (n <=? 255)).

(** [str.lower] on one code point: A-Z and the Latin-1 capitals
    \xc0-\xde except the multiplication sign \xd7. *)
Definition lower_char (c : ascii) : ascii :=
  let n := code c in
  if ((65 <=? n) && (n <=? 90)) || ((192 <=? n) && (n <=? 222) && negb (n =? 215))
  then ascii_of_nat (n + 32) else c.

Fixpoint lower (s : string) : string :=
  match s with
  | EmptyString => EmptyString
  | String c s' => String (lower_char c) (lower s')
  end.

(** [s.startswith(p)] *)
Definition startswith (s p : string) : bool := prefix p s.

(** [sub in s] *)
Fixpoint contains (s sub : string) : bool :=
  prefix sub s ||
  match s with
  | EmptyString => false
  | String _ s' => contains s' sub
  end.

(** [s.count(c)] for a one-character [c] *)
Fixpoint count_char (c : ascii) (s : string) : nat :=
  match s with
  | EmptyString => 0
  | String d s' => (if Ascii.eqb c d then 1 else 0) + count_char c s'
  end.

(** [s.split(sep)] for a one-character separator. *)
Fixpoint split_on (sep : ascii) (s : string) : list string :=
  match s with
  | EmptyString => [EmptyString]
  | String c s' =>
      match split_on sep s' with
      | [] => []
      | w :: ws => if Ascii.eqb c sep then EmptyString :: w :: ws
                   else String c w :: ws
      end
  end.

Definition nl : ascii := "010"%char.

(** [content.split("\n")] *)
Definition lines (s : string) : list string := split_on nl s.

(** ["\n".join(xs)] *)
Fixpoint join_nl (xs : list string) : string :=
  match xs with
  | [] => EmptyString
  | [x] => x
  | x :: xs' => append x (String nl (join_nl xs'))
  end.

(** [s.lstrip(chars)] / [s.rstrip(chars)] / [s.strip(chars)] for a
    character predicate. *)
Fixpoint lstrip_by (p : ascii -> bool) (s : string) : string :=
  match s with
  | EmptyString => EmptyString
  | String c s' => if p c then lstrip_by p s' else s
  end.

Fixpoint rev_str (s : string) : string :=
  match s with
  | EmptyString => EmptyString
  | String c s' => append (rev_str s') (String c EmptyString)
  end.

Definition rstrip_by (p : ascii -> bool) (s : string) : string :=
  rev_str (lstrip_by p (rev_str s)).

Definition strip_by (p : ascii -> bool) (s : string) : string :=
  rstrip_by p (lstrip_by p s).

(** [s.strip()] *)
Definition strip (s : string) : string := strip_by is_space s.

(** decimal rendering used by f-strings *)
Definition show_nat (n : nat) : string := NilEmpty.string_of_uint (Nat.to_uint n).

End Py.

(* ------------------------------------------------------------------ *)
(** ** The [re] patterns: regular expressions by Brzozowski derivatives

    The patterns of the validator use no look-around or back-references,
    so [re.search(p, s)] finds a match exactly when some substring of [s]
    is in the language of [p]; which match it reports is irrelevant for
    searches, and for [re.finditer] it is settled separately below. *)

Module Re.

Inductive re : Type :=
| Nothing
| Eps
| Chr (p : ascii -> bool)
| Cat (r1 r2 : re)
| Alt (r1 r2 : re)
| Star (r : re).

Fixpoint nullable (r : re) : bool :=
  match r with
  | Nothing => false
  | Eps => true
  | Chr _ => false
  | Cat r1 r2 => nullable r1 && nullable r2
  | Alt r1 r2 => nullable r1 || nullable r2
  | Star _ => true
  end.

Fixpoint deriv (c : ascii) (r : re) : re :=
  match r with
  | Nothing => Nothing
  | Eps => Nothing
  | Chr p => if p c then Eps else Nothing
  | Cat r1 r2 =>
      if nullable r1 then Alt (Cat (deriv c r1) r2) (deriv c r2)
      else Cat (deriv c r1) r2
  | Alt r1 r2 => Alt (deriv c r1) (deriv c r2)
  | Star r1 => Cat (deriv c r1) (Star r1)
  end.

(** the whole of [s] is in the language of [r] ([re.fullmatch]) *)
Fixpoint full (r : re) (s : string) : bool :=
  match s with
  | EmptyString => nullable r
  | String c s' => full (deriv c r) s'
  end.

(** some prefix of [s] is in the language of [r] *)
Fixpoint prefix_match (r : re) (s : string) : bool :=
  nullable r ||
  match s with
  | EmptyString => false
  | String c s' => prefix_match (deriv c r) s'
  end.

(** [re.search(r, s)]: a match starts at some position *)
Fixpoint search (r : re) (s : string) : bool :=
  prefix_match r s ||
  match s with
  | EmptyString => false
  | String _ s' => search r s'
  end.

(** building blocks *)
Definition lit (c : ascii) : re := Chr (Ascii.eqb c).
(** a literal under [re.IGNORECASE] *)
Definition lit_i (c : ascii) : re :=
  Chr (fun d => Ascii.eqb (Py.lower_char d) (Py.lower_char c)).

Fixpoint word_with (f : ascii -> re) (s : string) : re :=
  match s with
  | EmptyString => Eps
  | String c EmptyString => f c
  | String c s' => Cat (f c) (word_with f s')
  end.

Definition str (s : string) : re := word_with lit s.
Definition str_i (s : string) : re := word_with lit_i s.

Fixpoint alts (rs : list re) : re :=
  match rs with
  | [] => Nothing
  | [r] => r
  | r :: rs' => Alt r (alts rs')
  end.

Definition plus (r : re) : re := Cat r (Star r).
Definition opt (r : re) : re := Alt r Eps.

Definition ws : re := Chr Py.is_space.          (* \s *)
Definition digit : re := Chr Py.is_digit.       (* \d *)
Definition word : re := Chr Py.is_word.         (* \w *)
Definition dot : re := Chr (fun c => negb (Ascii.eqb c Py.nl)).  (* . *)

End Re.

(* ------------------------------------------------------------------ *)
(** ** [pathlib.PurePosixPath]: normalisation, [name] and [/] *)

Module PPath.

(** the root of a POSIX path: "//" is kept as its own root, "/" and
    three or more slashes collapse to "/" *)
Definition root (s : string) : string :=
  if Py.startswith s "///" then "/"
  else if Py.startswith s "//" then "//"
  else if Py.startswith s "/" then "/"
  else EmptyString.

(** the parts after the root: empty and "." components are dropped *)
Definition parts (s : string) : list string :=
  filter (fun p => negb (String.eqb p EmptyString || String.eqb p "."))
         (Py.split_on "/"%char s).

Fixpoint join_slash (xs : list string) : string :=
  match xs with
  | [] => EmptyString
  | [x] => x
  | x :: xs' => x ++ "/" ++ join_slash xs'
  end.

(** [str(Path(s))] *)
Definition norm (s : string) : string :=
  let r := root s ++ join_slash (parts s) in
  if String.eqb r EmptyString then "." else r.

(** [Path(s).name] *)
Definition name (s : string) : string := last (parts s) EmptyString.

(** [Path(a) / b] *)
Definition join (a b : string) : string :=
  if Py.startswith b "/" then norm b else norm (a ++ "/" ++ b).

End PPath.

(* ------------------------------------------------------------------ *)
(** ** Data model *)

Module Validator.

(** the four kinds returned by [detect_claude_type_from_content] *)
Inductive kind : Type := Global | Project | Local | Rules.

Definition kind_name (k : kind) : string :=
  match k with
  | Global => "global" | Project => "project" | Local => "local" | Rules => "rules"
  end.

(** [ValidationIssue.category]: the strings the validators use *)
Inductive category : Type := Frontmatter | Structure | BestPractices | Content | File.

(** [ValidationIssue.level] *)
Inductive level : Type := Error | Warning | Info.

Definition level_eqb (a b : level) : bool :=
  match a, b with
  | Error, Error | Warning, Warning | Info, Info => true
  | _, _ => false
  end.

Definition category_eqb (a b : category) : bool :=
  match a, b with
  | Frontmatter, Frontmatter | Structure, Structure
  | BestPractices, BestPractices | Content, Content | File, File => true
  | _, _ => false
  end.

(** [ValidationIssue.location]: every issue the script builds has one;
    [LocLine n] is the string [f"line {n}"], [LocRegion s] any other. *)
Inductive location : Type := LocLine (n : nat) | LocRegion (s : string).

Record issue : Type := mkIssue {
  category_of : category;
  level_of : level;
  message : string;
  location_of : location
}.

(** [LINE_COUNT_TARGETS] *)
Definition line_count_targets (k : kind) : nat * nat :=
  match k with
  | Global => (50, 150)
  | Project => (100, 300)
  | Local => (0, 50)
  | Rules => (20, 100)
  end.

(** [REQUIRED_SECTIONS] *)
Definition required_sections (k : kind) : list string :=
  match k with
  | Rules => ["## Purpose"]
  | _ => []
  end.

(* ------------------------------------------------------------------ *)
(** ** [validate_frontmatter]

    The shared [issues] list is threaded through: every validator takes
    it and returns it with its own issues appended. *)

(** [issues.append(x)] *)
Definition push {A : Type} (xs : list A) (x : A) : list A := (xs ++ [x])%list.

Definition fm_opening : issue :=
  mkIssue Frontmatter Error "Missing opening YAML fence (---)" (LocLine 1).
Definition fm_closing : issue :=
  mkIssue Frontmatter Error "Missing closing YAML fence (---)" (LocRegion "frontmatter").
Definition fm_no_name : issue :=
  mkIssue Frontmatter Warning "Missing 'name' field in frontmatter" (LocRegion "frontmatter").
Definition fm_no_description : issue :=
  mkIssue Frontmatter Warning "Missing 'description' field in frontmatter" (LocRegion "frontmatter").
Definition fm_angle : issue :=
  mkIssue Frontmatter Warning "Angle brackets detected in frontmatter (use &lt; or &gt; instead)"
    (LocRegion "frontmatter").

(** [for i, line in enumerate(xs, i): if line.strip() == "---": return i] *)
Fixpoint find_fence (xs : list string) (i : nat) : option nat :=
  match xs with
  | [] => None
  | x :: xs' => if String.eqb (Py.strip x) "---" then Some i else find_fence xs' (S i)
  end.

Definition validate_frontmatter (content : string) (issues : list issue)
    (require_frontmatter : bool) : list issue * bool :=
  let lines := Py.lines content in
  if negb require_frontmatter then (issues, true)
  else if negb (Py.startswith content "---") then (push issues fm_opening, false)
  else
    match find_fence (tl lines) 1 with
    | None => (push issues fm_closing, false)
    | Some frontmatter_end =>
        let frontmatter := Py.join_nl (firstn (frontmatter_end - 1) (tl lines)) in
        let issues := if Py.contains frontmatter "name:" then issues
                      else push issues fm_no_name in
        let issues := if Py.contains frontmatter "description:" then issues
                      else push issues fm_no_description in
        let issues := if Py.contains frontmatter "<" || Py.contains frontmatter ">"
                      then push issues fm_angle else issues in
        (issues, true)
    end.

(* ------------------------------------------------------------------ *)
(** ** [validate_structure] *)

Definition no_headings : issue :=
  mkIssue Structure Warning "No section headings (##) found" (LocRegion "entire file").

Definition validate_structure (content : string) (claude_type : kind)
    (issues : list issue) : list issue :=
  let lines := Py.lines content in
  let headings := filter (fun line => Py.startswith line "##") lines in
  let issues := match headings with [] => push issues no_headings | _ => issues end in
  fold_left (fun issues section =>
      if Py.contains content section then issues
      else push issues (mkIssue Structure Warning ("Missing required section: " ++ section)
                        (LocRegion "sections")))
    (required_sections claude_type) issues.

(* ------------------------------------------------------------------ *)
(** ** [validate_best_practices] *)

Definition is_fence (line : string) : bool := Py.startswith (Py.strip line) "```".

(** loop state: [(bullet_sections, current_section, in_code_block)] *)
Definition bp_step (st : list (list string) * list string * bool) (line : string)
    : list (list string) * list string * bool :=
  let '(bullet_sections, current_section, in_code_block) := st in
  if is_fence line then (bullet_sections, current_section, negb in_code_block)
  else if in_code_block then st
  else if Py.startswith (Py.strip line) "- " && Py.contains line "|" then
    (bullet_sections, push current_section line, in_code_block)
  else match current_section with
       | [] => st
       | _ => ((if 3 <=? List.length current_section
                then push bullet_sections current_section else bullet_sections),
               [], in_code_block)
       end.

Definition bullet_sections_of (content : string) : list (list string) :=
  fst (fst (fold_left bp_step (Py.lines content) ([], [], false))).

Definition validate_best_practices (content : string) (claude_type : kind)
    (issues : list issue) : list issue :=
  let lines := Py.lines content in
  let line_count := List.length lines in
  let '(min_lines, max_lines) := line_count_targets claude_type in
  let issues :=
    if max_lines <? line_count then
      push issues (mkIssue BestPractices Warning
        ("Line count: " ++ Py.show_nat line_count ++ " (target: " ++ Py.show_nat min_lines
         ++ "-" ++ Py.show_nat max_lines
         ++ "). Consider using references/ for detailed content.") (LocRegion "entire file"))
    else issues in
  let bullet_sections := bullet_sections_of content in
  match bullet_sections with
  | [] => issues
  | _ => push issues (mkIssue BestPractices Info
           ("Found " ++ Py.show_nat (List.length bullet_sections)
            ++ " sections with bullet lists containing pipes - consider using Markdown tables instead")
           (LocRegion "formatting"))
  end.

(* ------------------------------------------------------------------ *)
(** ** [validate_content] *)

(** the working directory as seen by [Path.exists()]: a predicate on
    normalised path strings (an existence check is taken to return) *)
Definition exists_fn := string -> bool.

(** loop state of the prose pass: [(in_code_block, in_table, prose_content)] *)
Definition prose_step (st : bool * bool * list string) (line : string)
    : bool * bool * list string :=
  let '(in_code_block, in_table, prose) := st in
  if is_fence line then (negb in_code_block, in_table, prose)
  else if in_code_block then st
  else if Py.contains line "|" && Py.startswith (Py.strip line) "|" then (in_code_block, true, prose)
  else if in_table && String.eqb (Py.strip line) EmptyString then (in_code_block, false, prose)
  else if in_table then st
  else (in_code_block, in_table, push prose line).

Definition prose_text (content : string) : string :=
  Py.join_nl (snd (fold_left prose_step (Py.lines content) (false, false, []))).

Definition tick : ascii := "`"%char.
Definition is_hyphen (c : ascii) : bool := Ascii.eqb c "-"%char.

(** [path_pattern] between its two backticks:
    [(?:\./|\.\./|[\w\-]+/)+[\w\-./]+(?:\.\w+)?] *)
Definition path_inner : Re.re :=
  Re.Cat (Re.plus (Re.alts [Re.str "./"; Re.str "../";
                            Re.Cat (Re.plus (Re.Chr (fun c => Py.is_word c || is_hyphen c)))
                                   (Re.lit "/"%char)]))
   (Re.Cat (Re.plus (Re.Chr (fun c => Py.is_word c || is_hyphen c
                                      || Ascii.eqb c "."%char || Ascii.eqb c "/"%char)))
           (Re.opt (Re.Cat (Re.lit "."%char) (Re.plus Re.word)))).

(** [re.finditer(path_pattern, text)], each match's [group(0)].
    No character of [path_inner] is a backtick, so a match starting at a
    backtick can only end at the next backtick: from an opening backtick
    the scan collects the characters up to the next backtick ([cur], in
    reverse) and emits the match when they are in [path_inner];
    otherwise no match starts in between and the closing backtick is
    itself the next candidate start. *)
Fixpoint path_matches (text : string) (cur : option string) : list string :=
  match text with
  | EmptyString => []
  | String c text' =>
      match cur with
      | None => if Ascii.eqb c tick then path_matches text' (Some EmptyString) else path_matches text' None
      | Some w =>
          if Ascii.eqb c tick then
            let inner := Py.rev_str w in
            if Re.full path_inner inner
            then (String tick (inner ++ String tick EmptyString)) :: path_matches text' None
            else path_matches text' (Some EmptyString)
          else path_matches text' (Some (String c w))
      end
  end.

Definition skip_patterns : list string :=
  ["http://"; "https://"; "://";
   "npm run"; "pip install"; "cargo run"; "go run";
   "pytest"; "npm test"; "npx"; "uvicorn";
   "anchor"; "solana"; "git ";
   "mcp__"; "__";
   "else"; "if "; "for "; "while "; "return"].

Definition bad_chars : list string := ["("; ")"; "{"; "}"; "<"; ">"; (String "034"%char EmptyString); "'"].

Definition base_dirs : list string := ["."; "./frontend"; "./gateway"; "./programs"; "./agents"].

Definition missing_path (path_ref : string) : issue :=
  mkIssue Content Info ("Referenced path does not exist: " ++ path_ref) (LocRegion "references").

(** the body of the [for match in ...] loop *)
Definition check_path (path_exists : exists_fn) (issues : list issue) (m : string)
    : list issue :=
  let path_ref := Py.strip_by (Ascii.eqb tick) m in
  if existsb (fun x => Py.contains (Py.lower path_ref) x) skip_patterns then issues
  else if existsb (fun c => Py.contains path_ref c) bad_chars then issues
  else if path_exists (PPath.norm path_ref) then issues
  else
    let found := existsb (fun base_dir => path_exists (PPath.join base_dir path_ref)) base_dirs in
    if negb found && (Py.count_char "/"%char path_ref <? 3)
    then push issues (missing_path path_ref)
    else issues.

Definition validate_content (path_exists : exists_fn) (content : string)
    (issues : list issue) : list issue :=
  fold_left (check_path path_exists) (path_matches (prose_text content) None) issues.

(* ------------------------------------------------------------------ *)
(** ** [validate_dynamic_content] *)

Definition seq (rs : list Re.re) : Re.re := fold_right Re.Cat Re.Eps rs.

(** [dynamic_patterns], all searched with [re.IGNORECASE] *)
Definition status_words (ws : list string) : Re.re := Re.alts (map Re.str_i ws).

Definition dynamic_patterns : list (Re.re * string) :=
  [ (* \|\s*Status\s*\| *)
    (seq [Re.lit_i "|"; Re.Star Re.ws; Re.str_i "Status"; Re.Star Re.ws; Re.lit_i "|"],
     "Table has 'Status' column - dynamic data belongs in feature-list.json");
    (* \|\s*(pending|done|complete|in_progress|blocked)\s*\| *)
    (seq [Re.lit_i "|"; Re.Star Re.ws;
          status_words ["pending"; "done"; "complete"; "in_progress"; "blocked"];
          Re.Star Re.ws; Re.lit_i "|"],
     "Table contains status values - move to progress files");
    (* ##\s*(Implementation|Feature|Phase).*Status *)
    (seq [Re.str_i "##"; Re.Star Re.ws;
          status_words ["Implementation"; "Feature"; "Phase"];
          Re.Star Re.dot; Re.str_i "Status"],
     "Section title suggests status tracking");
    (* \[x\]|\[\s*\] *)
    (Re.Alt (seq [Re.lit_i "["; Re.lit_i "x"; Re.lit_i "]"])
            (seq [Re.lit_i "["; Re.Star Re.ws; Re.lit_i "]"]),
     "Task checkboxes - use task tracker instead");
    (* TO-DO:|TODO:|FIXME: *)
    (status_words ["TO-DO:"; "TODO:"; "FIXME:"],
     "Inline todos - use task tracker instead");
    (* Phase\s+\d+.*:\s*(pending|done|complete) *)
    (seq [Re.str_i "Phase"; Re.plus Re.ws; Re.plus Re.digit; Re.Star Re.dot;
          Re.lit_i ":"; Re.Star Re.ws; status_words ["pending"; "done"; "complete"]],
     "Phase status tracking - move to progress files") ].

(** the inner [for pattern, message in dynamic_patterns] with its [break] *)
Fixpoint first_dynamic (pats : list (Re.re * string)) (line : string) : option string :=
  match pats with
  | [] => None
  | (p, msg) :: pats' => if Re.search p line then Some msg else first_dynamic pats' line
  end.

(** [in_code] is a local that does not exist before the first fence
    line ([None]): [in_code = not in_code if 'in_code' in locals() else True] *)
Definition toggle_in_code (in_code : option bool) : option bool :=
  match in_code with
  | Some b => Some (negb b)
  | None => Some true
  end.

(** [for i, line in enumerate(lines, 1)], from line number [i] on *)
Fixpoint dynamic_loop (lines : list string) (i : nat) (in_code : option bool)
    (issues : list issue) : list issue :=
  match lines with
  | [] => issues
  | line :: rest =>
      if is_fence line then dynamic_loop rest (S i) (toggle_in_code in_code) issues
      else if match in_code with Some true => true | _ => false end
      then dynamic_loop rest (S i) in_code issues
      else
        let issues :=
          match first_dynamic dynamic_patterns line with
          | Some msg => push issues (mkIssue Content Warning
                                       ("Dynamic content detected: " ++ msg) (LocLine i))
          | None => issues
          end in
        dynamic_loop rest (S i) in_code issues
  end.

Definition validate_dynamic_content (content : string) (issues : list issue) : list issue :=
  dynamic_loop (Py.lines content) 1 None issues.

(* ------------------------------------------------------------------ *)
(** ** [detect_claude_type_from_content]

    [file_path] is the path given on the command line; [home] is
    [Path.home()]. *)

Definition detect_claude_type_from_content (home : string) (content : string)
    (file_path : string) : kind :=
  let path := PPath.norm file_path in
  if String.eqb path (PPath.join (PPath.join home ".claude") "CLAUDE.md") then Global
  else if Py.contains path ".claude/rules" then Rules
  else if String.eqb (PPath.name path) "CLAUDE.local.md" then Local
  else Project.

(* ------------------------------------------------------------------ *)
(** ** [validate_file] *)

(** the filesystem the script runs against *)
Record fs : Type := mkFs {
  fs_home : string;                      (* Path.home() *)
  fs_exists : exists_fn;                 (* Path(p).exists() *)
  fs_read : string -> option string      (* Path(p).read_text(); None: it raises *)
}.

(** the [result] dict; [rtype = None] when the dict has no ["type"] key *)
Record result : Type := mkResult {
  valid : bool;
  rtype : option kind;
  errors : nat;
  warnings : nat;
  infos : nat;
  issues_of : list issue
}.

(** how a call of [validate_file] ends: it returns an exit code with
    the result it built, or an exception escapes it *)
Inductive outcome : Type :=
| Returned (r : result) (code : nat)
| Raised.

Definition count_level (l : level) (issues : list issue) : nat :=
  List.length (filter (fun i => level_eqb (level_of i) l) issues).

Definition not_found_result (file_path : string) : result :=
  mkResult false None 1 0 0
    [mkIssue File Error ("File not found: " ++ file_path) (LocRegion "filesystem")].

(** the five validators in order, on the shared issue list *)
Definition run_validators (F : fs) (content : string) (file_path : string) : list issue :=
  let path := PPath.norm file_path in
  let claude_type := detect_claude_type_from_content (fs_home F) content path in
  let require_frontmatter :=
    Py.contains path "skills" || String.eqb (PPath.name path) "SKILL.md" in
  let issues := fst (validate_frontmatter content [] require_frontmatter) in
  let issues := validate_structure content claude_type issues in
  let issues := validate_best_practices content claude_type issues in
  let issues := validate_content (fs_exists F) content issues in
  validate_dynamic_content content issues.

(** [validate_file(file_path, json_output)]; the printing does not
    influence the result or the return value and is left out. *)
Definition validate_file (F : fs) (file_path : string) : outcome :=
  let path := PPath.norm file_path in
  if negb (fs_exists F path) then Returned (not_found_result file_path) 2
  else
    match fs_read F path with
    | None => Raised
    | Some content =>
        let claude_type := detect_claude_type_from_content (fs_home F) content path in
        let issues := run_validators F content file_path in
        let errors := count_level Error issues in
        let warnings := count_level Warning issues in
        let infos := count_level Info issues in
        Returned (mkResult (errors =? 0) (Some claude_type) errors warnings infos issues)
                 (if errors =? 0 then 0 else if 0 <? errors then 2 else 1)
    end.

(** [sys.exit(main())]: the returned code, or status 1 when an
    exception propagates out of the interpreter *)
Definition process_status (o : outcome) : nat :=
  match o with
  | Returned _ code => code
  | Raised => 1
  end.

End Validator.

(* ------------------------------------------------------------------ *)
(** ** Concrete filesystems used by the witnesses and counterexamples *)

Module Fixtures.
Import Validator.

(** nothing exists *)
Definition fs_empty : fs := mkFs "/home/u" (fun _ => false) (fun _ => None).

(** "docs" exists but is a directory: [read_text] raises on it *)
Definition fs_dir : fs :=
  mkFs "/home/u" (fun p => String.eqb p "docs") (fun _ => None).

(** one readable file [CLAUDE.md] with the given text *)
Definition fs_one (text : string) : fs :=
  mkFs "/home/u" (fun p => String.eqb p "CLAUDE.md")
       (fun p => if String.eqb p "CLAUDE.md" then Some text else None).

Definition nl_str : string := String Py.nl EmptyString.

End Fixtures.

(* ------------------------------------------------------------------ *)
(** ** Aggregation: validity, exit status, faults *)

Module Aggregate.
Import Validator Fixtures.

(** C1: whenever [validate_file] returns a result, [valid] is
    [errors == 0] and [errors] is the number of error-level issues;
    warning- and info-level issues take no part in it. *)
Theorem valid_iff_no_errors (F : fs) (p : string) :
  match validate_file F p with
  | Returned r _ =>
      valid r = (errors r =? 0) /\ errors r = count_level Error (issues_of r)
      /\ (valid r = true <-> Forall (fun i => level_of i <> Error) (issues_of r))
  | Raised => True
  end.
Proof.
  unfold validate_file.
  destruct (fs_exists F (PPath.norm p)) eqn:He; simpl.
  - destruct (fs_read F (PPath.norm p)) as [content|]; [|exact I]; simpl.
    set (is := run_validators F content p).
    split; [reflexivity|]. split; [reflexivity|].
    unfold count_level. rewrite Nat.eqb_eq, length_zero_iff_nil, Forall_forall.
    split.
    + intros Hnil x Hx Hlev.
      assert (In x (filter (fun i => level_eqb (level_of i) Error) is)) as Hin.
      { apply filter_In. split; [exact Hx|]. rewrite Hlev. reflexivity. }
      rewrite Hnil in Hin. destruct Hin.
    + intros Hall. destruct (filter (fun i => level_eqb (level_of i) Error) is) as [|x xs] eqn:Hf;
        [reflexivity|].
      exfalso. assert (In x (filter (fun i => level_eqb (level_of i) Error) is)) as Hin
        by (rewrite Hf; left; reflexivity).
      apply filter_In in Hin. destruct Hin as [Hx Hl].
      apply (Hall x Hx). destruct (level_of x); try discriminate; reflexivity.
  - repeat split; simpl; try reflexivity.
    + intros H; discriminate H.
    + intros H. inversion H as [|x xs Hx _]. destruct (Hx eq_refl).
Qed.

(** C2 (amended): a missing path gives the single file-not-found issue
    and status 2; an existing path whose text is read gives status 0
    without errors and 2 with errors, never 1; an existing path whose
    text cannot be read ends in an uncaught exception, status 1. *)
Theorem validate_file_exit_status (F : fs) (p : string) :
  (fs_exists F (PPath.norm p) = false ->
     let r := not_found_result p in
     validate_file F p = Returned r 2 /\ valid r = false /\ rtype r = None
     /\ errors r = 1 /\ warnings r = 0 /\ infos r = 0
     /\ issues_of r = [mkIssue File Error ("File not found: " ++ p) (LocRegion "filesystem")])
  /\
  (fs_exists F (PPath.norm p) = true ->
     match validate_file F p with
     | Returned r code =>
         fs_read F (PPath.norm p) <> None
         /\ code = (if errors r =? 0 then 0 else 2) /\ code <> 1
     | Raised => fs_read F (PPath.norm p) = None /\ process_status Raised = 1
     end).
Proof.
  split.
  - intros He. unfold validate_file. rewrite He. simpl.
    repeat split; reflexivity.
  - intros He. unfold validate_file. rewrite He. simpl.
    destruct (fs_read F (PPath.norm p)) as [content|] eqn:Hr; [|split; reflexivity].
    simpl. destruct (count_level Error (run_validators F content p)) as [|n]; simpl;
      repeat split; discriminate.
Qed.

(** witness: both branches on concrete filesystems *)
Lemma validate_file_exit_status_witness :
  fs_exists fs_empty (PPath.norm "nope.md") = false
  /\ validate_file fs_empty "nope.md" = Returned (not_found_result "nope.md") 2
  /\ fs_exists (fs_one "## A") (PPath.norm "CLAUDE.md") = true
  /\ match validate_file (fs_one "## A") "CLAUDE.md" with
     | Returned r code =>
         fs_read (fs_one "## A") (PPath.norm "CLAUDE.md") <> None
         /\ code = (if errors r =? 0 then 0 else 2) /\ code <> 1
     | Raised => fs_read (fs_one "## A") (PPath.norm "CLAUDE.md") = None
                 /\ process_status Raised = 1
     end.
Proof.
  split; [vm_compute; reflexivity|].
  split; [exact (proj1 (proj1 (validate_file_exit_status fs_empty "nope.md") eq_refl))|].
  split; [vm_compute; reflexivity|].
  exact (proj2 (validate_file_exit_status (fs_one "## A") "CLAUDE.md") eq_refl).
Defined.

(** C2 counterexample: an existing directory passes [path.exists()],
    [read_text()] raises, the exception escapes and the process status
    is 1. *)
Lemma exit_status_one_on_directory :
  validate_file fs_dir "docs" = Raised /\ process_status (validate_file fs_dir "docs") = 1.
Proof. split; vm_compute; reflexivity. Qed.

(** C3 (amended): a missing path is converted into the file-not-found
    result with status 2; the only way [validate_file] fails to return a
    result is an existing path whose [read_text()] raises, and that
    exception is not caught; every run whose text is read returns a
    result. *)
Theorem raised_iff_unreadable (F : fs) (p : string) :
  (fs_exists F (PPath.norm p) = false ->
     validate_file F p = Returned (not_found_result p) 2
     /\ process_status (validate_file F p) = 2)
  /\ (validate_file F p = Raised
      <-> fs_exists F (PPath.norm p) = true /\ fs_read F (PPath.norm p) = None)
  /\ (forall content, fs_read F (PPath.norm p) = Some content ->
        exists r code, validate_file F p = Returned r code).
Proof.
  unfold validate_file.
  destruct (fs_exists F (PPath.norm p)); simpl.
  - split; [intros H; discriminate H|].
    destruct (fs_read F (PPath.norm p)) as [c|]; simpl; split.
    + split; [discriminate | intros [_ H]; discriminate H].
    + intros content _. eexists; eexists; reflexivity.
    + split; [intros _; split; reflexivity | intros _; reflexivity].
    + intros content H; discriminate H.
  - split; [intros _; split; reflexivity|].
    split; [split; [discriminate | intros [H _]; discriminate H]|].
    intros content _. eexists; eexists; reflexivity.
Qed.

(** witness: a missing path and a readable file *)
Lemma raised_iff_unreadable_witness :
  (validate_file fs_empty "nope.md" = Returned (not_found_result "nope.md") 2
   /\ process_status (validate_file fs_empty "nope.md") = 2)
  /\ (exists r code, validate_file (fs_one "## A") "CLAUDE.md" = Returned r code).
Proof.
  split.
  - exact (proj1 (raised_iff_unreadable fs_empty "nope.md") eq_refl).
  - exact (proj2 (proj2 (raised_iff_unreadable (fs_one "## A") "CLAUDE.md")) "## A" eq_refl).
Defined.

(** C3 counterexample: an existing, unreadable path yields no
    Validation Result. *)
Lemma unreadable_path_raises :
  validate_file fs_dir "docs" = Raised.
Proof. vm_compute. reflexivity. Qed.

End Aggregate.

(* ------------------------------------------------------------------ *)
(** ** Frontmatter and structure *)

Module FrontmatterStructure.
Import Validator Fixtures.

Lemma push_inj {A : Type} (xs : list A) (x y : A) : push xs x = push xs y -> x = y.
Proof.
  unfold push. intros H. apply app_inv_head in H. injection H as H. exact H.
Qed.

Lemma find_fence_none (xs : list string) (i : nat) :
  Forall (fun l => Py.strip l <> "---") xs -> find_fence xs i = None.
Proof.
  revert i. induction xs as [|x xs IH]; intros i Hall; [reflexivity|].
  inversion Hall as [|? ? Hx Hxs]; subst. simpl.
  destruct (String.eqb_spec (Py.strip x) "---") as [E|_]; [contradiction|].
  apply IH; exact Hxs.
Qed.

Lemma filter_nil_iff {A : Type} (f : A -> bool) (l : list A) :
  filter f l = [] <-> Forall (fun x => f x = false) l.
Proof.
  induction l as [|x l IH]; simpl; [split; auto|].
  destruct (f x) eqn:Hf; split.
  - discriminate.
  - intros H. inversion H as [|? ? Hx _]. congruence.
  - intros H. constructor; [exact Hf | apply IH; exact H].
  - intros H. inversion H as [|? ? _ Hl]. apply IH; exact Hl.
Qed.

(** C4 (amended): with frontmatter required, the missing-opening error
    is emitted, alone and with the validator returning [False], exactly
    when the text does not start with the three characters "---". *)
Theorem opening_error_iff_no_prefix (content : string) (issues : list issue) :
  validate_frontmatter content issues true = (push issues fm_opening, false)
  <-> Py.startswith content "---" = false.
Proof.
  unfold validate_frontmatter. simpl.
  destruct (Py.startswith content "---"); simpl; [|split; reflexivity].
  split; [|discriminate].
  destruct (find_fence (tl (Py.lines content)) 1).
  - intros H. injection H as _ H. discriminate H.
  - intros H. injection H as H. apply push_inj in H. discriminate H.
Qed.

(** C4 counterexample: "----" and "--- x" pass the opening check; they
    get the missing-closing error instead of the missing-opening one. *)
Lemma opening_check_is_prefix_test :
  validate_frontmatter "----" [] true = ([fm_closing], false)
  /\ validate_frontmatter "--- x" [] true = ([fm_closing], false)
  /\ fm_closing <> fm_opening.
Proof.
  split; [vm_compute; reflexivity|]. split; [vm_compute; reflexivity|].
  discriminate.
Qed.

(** C10: the closing fence is searched from the second line on, so a
    required frontmatter that opens with "---" and has no later line
    stripping to "---" gets the missing-closing error and nothing else. *)
Theorem closing_fence_after_first_line (content : string) (issues : list issue)
    (Hopen : Py.startswith content "---" = true)
    (Hrest : Forall (fun l => Py.strip l <> "---") (tl (Py.lines content))) :
  validate_frontmatter content issues true = (push issues fm_closing, false).
Proof.
  unfold validate_frontmatter. simpl. rewrite Hopen. simpl.
  rewrite (find_fence_none _ 1 Hrest). reflexivity.
Qed.

Lemma closing_fence_after_first_line_witness :
  Py.startswith "---" "---" = true
  /\ validate_frontmatter "---" [] true = ([fm_closing], false).
Proof.
  split; [reflexivity|].
  apply (closing_fence_after_first_line "---" []); [reflexivity|].
  vm_compute. constructor.
Defined.

Lemma sections_only_sections (content : string) (secs : list string) (acc : list issue) :
  exists extra,
    fold_left (fun issues section =>
      if Py.contains content section then issues
      else push issues (mkIssue Structure Warning ("Missing required section: " ++ section)
                          (LocRegion "sections"))) secs acc = (acc ++ extra)%list
    /\ Forall (fun x => location_of x = LocRegion "sections") extra.
Proof.
  revert acc. induction secs as [|s secs IH]; intros acc; simpl.
  - exists []. rewrite app_nil_r. split; [reflexivity | constructor].
  - destruct (Py.contains content s).
    + exact (IH acc).
    + destruct (IH (push acc (mkIssue Structure Warning ("Missing required section: " ++ s)
                                 (LocRegion "sections")))) as [ex [E F]].
      exists (mkIssue Structure Warning ("Missing required section: " ++ s)
                (LocRegion "sections") :: ex).
      split; [|constructor; [reflexivity | exact F]].
      simpl in E |- *. rewrite E. unfold push. rewrite <- app_assoc. reflexivity.
Qed.

(** C5 (amended): the no-headings warning is emitted exactly when no
    line starts with "##" (so "###" headings and "##" with no space
    after it count as headings). *)
Theorem no_headings_iff (content : string) (k : kind) (issues : list issue) :
  exists extra,
    validate_structure content k issues = (issues ++ extra)%list
    /\ (In no_headings extra
        <-> Forall (fun l => Py.startswith l "##" = false) (Py.lines content)).
Proof.
  unfold validate_structure.
  destruct (filter (fun line => Py.startswith line "##") (Py.lines content)) as [|h hs] eqn:Hf.
  - destruct (sections_only_sections content (required_sections k) (push issues no_headings))
      as [ex [E F]].
    rewrite E. unfold push. rewrite <- app_assoc. eexists. split; [reflexivity|].
    split.
    + intros _. apply (filter_nil_iff (fun line => Py.startswith line "##")). exact Hf.
    + intros _. left. reflexivity.
  - destruct (sections_only_sections content (required_sections k) issues) as [ex [E F]].
    rewrite E. eexists. split; [reflexivity|].
    split.
    + intros Hin. rewrite Forall_forall in F. specialize (F _ Hin). discriminate F.
    + intros H. apply (filter_nil_iff (fun line => Py.startswith line "##")) in H.
      rewrite Hf in H. discriminate H.
Qed.

(** C5 counterexample: only "###" or "##x" heading lines, no warning. *)
Lemma deeper_headings_count :
  validate_structure "### A" Project [] = []
  /\ validate_structure "##x" Project [] = [].
Proof. split; vm_compute; reflexivity. Qed.

End FrontmatterStructure.

(* ------------------------------------------------------------------ *)
(** ** Classification and best practices *)

Module KindAndPractices.
Import Validator Fixtures.




Definition three_pipe_bullets : string :=
  "- a|b" ++ nl_str ++ "- c|d" ++ nl_str ++ "- e|f".

(** C7: a run of three bullet lines with pipes that reaches the last
    line is never moved into [bullet_sections] (the run is only closed
    by a later line), so no info issue is emitted; the same run followed
    by one more (empty) line is reported. *)
Theorem final_bullet_run_dropped :
  bullet_sections_of three_pipe_bullets = []
  /\ validate_best_practices three_pipe_bullets Project [] = []
  /\ bullet_sections_of (three_pipe_bullets ++ nl_str) = [["- a|b"; "- c|d"; "- e|f"]]
  /\ List.length (validate_best_practices (three_pipe_bullets ++ nl_str) Project []) = 1.
Proof. repeat split; vm_compute; reflexivity. Qed.

End KindAndPractices.

(* ------------------------------------------------------------------ *)
(** ** Regular-expression search lemmas *)

Module ReFacts.
Import Re.

Lemma prefix_split (w s : string) : prefix w s = true -> exists t, s = (w ++ t)%string.
Proof.
  revert s. induction w as [|c w IH]; intros s H.
  - exists s. reflexivity.
  - destruct s as [|d s]; [discriminate|]. simpl in H.
    destruct (ascii_dec c d) as [->|]; [|discriminate].
    destruct (IH s H) as [t ->]. exists t. reflexivity.
Qed.

Lemma prefix_match_app (r : re) (w t : string) :
  prefix_match r w = true -> prefix_match r (w ++ t) = true.
Proof.
  revert r. induction w as [|c w IH]; intros r H; simpl in *.
  - rewrite orb_false_r in H. destruct t; simpl; rewrite H; reflexivity.
  - apply orb_true_iff in H as [H|H]; rewrite orb_true_iff; [left; exact H|].
    right. apply IH. exact H.
Qed.

(** [re.search] finds [r] in any text containing a string whose prefix
    is in the language of [r] *)
Lemma search_contains (r : re) (s w : string) :
  Py.contains s w = true -> prefix_match r w = true -> search r s = true.
Proof.
  intros Hc Hw. induction s as [|c s IH].
  - simpl in *. rewrite orb_false_r in Hc.
    destruct w; [|discriminate]. rewrite orb_true_iff. left. exact Hw.
  - change ((prefix w (String c s) || Py.contains s w) = true) in Hc.
    change ((prefix_match r (String c s) || search r s) = true).
    apply orb_true_iff in Hc as [Hc|Hc].
    + destruct (prefix_split _ _ Hc) as [t E]. rewrite E.
      apply orb_true_iff. left. apply prefix_match_app. exact Hw.
    + apply orb_true_iff. right. apply IH. exact Hc.
Qed.

End ReFacts.

(* ------------------------------------------------------------------ *)
(** ** Dynamic-content detector *)

Module Dynamic.
Import Validator Fixtures.

(** an issue is a content-category warning located at line [i] *)
Definition content_warning_at (i : nat) (x : issue) : bool :=
  category_eqb (category_of x) Content && level_eqb (level_of x) Warning
  && match location_of x with LocLine j => j =? i | LocRegion _ => false end.

Definition is_content_warning (x : issue) : bool :=
  category_eqb (category_of x) Content && level_eqb (level_of x) Warning.

Definition skipping (in_code : option bool) : bool :=
  match in_code with Some true => true | _ => false end.

Definition next_state (in_code : option bool) (line : string) : option bool :=
  if is_fence line then toggle_in_code in_code else in_code.

Definition state_after (in_code : option bool) (xs : list string) : option bool :=
  fold_left next_state xs in_code.

Definition dyn_issue (msg : string) (i : nat) : issue :=
  mkIssue Content Warning ("Dynamic content detected: " ++ msg) (LocLine i).

(** what the loop body appends for one line *)
Definition line_out (in_code : option bool) (line : string) (i : nat) : list issue :=
  if is_fence line then []
  else if skipping in_code then []
  else match first_dynamic dynamic_patterns line with
       | Some msg => [dyn_issue msg i]
       | None => []
       end.

Definition count_fences (xs : list string) : nat := List.length (filter is_fence xs).

(** line [i] (1-based) is a fence line or lies between an opening fence
    and its closing one *)
Definition in_fenced_block (ls : list string) (i : nat) : bool :=
  match nth_error ls (i - 1) with Some l => is_fence l | None => false end
  || Nat.odd (count_fences (firstn (i - 1) ls)).

Lemma loop_app (ls : list string) (s : nat) (st : option bool) (acc : list issue) :
  dynamic_loop ls s st acc = (acc ++ dynamic_loop ls s st [])%list.
Proof.
  revert s st acc. induction ls as [|l ls IH]; intros s st acc; cbn [dynamic_loop].
  - rewrite app_nil_r. reflexivity.
  - destruct (is_fence l); [apply IH|].
    destruct (match st with Some true => true | _ => false end); [apply IH|].
    destruct (first_dynamic dynamic_patterns l); [|apply IH].
    rewrite (IH _ _ (push acc _)), (IH _ _ (push [] _)).
    unfold push. rewrite <- app_assoc. reflexivity.
Qed.

Lemma loop_cons (l : string) (ls : list string) (s : nat) (st : option bool) :
  dynamic_loop (l :: ls) s st [] = (line_out st l s ++ dynamic_loop ls (S s) (next_state st l) [])%list.
Proof.
  unfold line_out, next_state. cbn [dynamic_loop].
  destruct (is_fence l); [reflexivity|]. unfold skipping.
  destruct (match st with Some true => true | _ => false end); [reflexivity|].
  destruct (first_dynamic dynamic_patterns l); [|reflexivity].
  rewrite loop_app. reflexivity.
Qed.

Lemma line_out_located (st : option bool) (l : string) (s j : nat) :
  j <> s -> filter (content_warning_at j) (line_out st l s) = [].
Proof.
  intros Hne. unfold line_out.
  destruct (is_fence l); [reflexivity|]. destruct (skipping st); [reflexivity|].
  destruct (first_dynamic dynamic_patterns l); [|reflexivity].
  simpl. unfold content_warning_at. simpl.
  destruct (Nat.eqb_spec s j); [congruence | reflexivity].
Qed.

Lemma line_out_at (st : option bool) (l : string) (s : nat) :
  filter (content_warning_at s) (line_out st l s) = line_out st l s.
Proof.
  unfold line_out.
  destruct (is_fence l); [reflexivity|]. destruct (skipping st); [reflexivity|].
  destruct (first_dynamic dynamic_patterns l); [|reflexivity].
  simpl. unfold content_warning_at. simpl. rewrite Nat.eqb_refl. reflexivity.
Qed.

Lemma loop_below (ls : list string) (s : nat) (st : option bool) (j : nat) :
  j < s -> filter (content_warning_at j) (dynamic_loop ls s st []) = [].
Proof.
  revert s st. induction ls as [|l ls IH]; intros s st Hj; [reflexivity|].
  rewrite loop_cons, filter_app, line_out_located by lia.
  apply IH. lia.
Qed.

Lemma loop_at (ls : list string) (s : nat) (st : option bool) (k : nat) :
  filter (content_warning_at (s + k)) (dynamic_loop ls s st []) =
  match nth_error ls k with
  | Some l => line_out (state_after st (firstn k ls)) l (s + k)
  | None => []
  end.
Proof.
  revert s st k. induction ls as [|l ls IH]; intros s st k.
  - destruct k; reflexivity.
  - rewrite loop_cons, filter_app. destruct k as [|k].
    + rewrite Nat.add_0_r, line_out_at, loop_below by lia.
      rewrite app_nil_r. reflexivity.
    + rewrite line_out_located by lia. simpl.
      replace (s + S k) with (S s + k) by lia. apply IH.
Qed.

Lemma skipping_toggle (st : option bool) :
  skipping (toggle_in_code st) = negb (skipping st).
Proof. destruct st as [[]|]; reflexivity. Qed.

(** the [locals()] toggle is a fence-parity test *)
Lemma skipping_state_after (st : option bool) (xs : list string) :
  skipping (state_after st xs) = xorb (skipping st) (Nat.odd (count_fences xs)).
Proof.
  revert st. induction xs as [|x xs IH]; intros st.
  - simpl. rewrite xorb_false_r. reflexivity.
  - unfold state_after, count_fences in *. simpl. rewrite IH. unfold next_state.
    destruct (is_fence x); simpl.
    + rewrite skipping_toggle, Nat.odd_succ, <- Nat.negb_odd.
      destruct (skipping st), (Nat.odd _); reflexivity.
    + reflexivity.
Qed.

Lemma first_dynamic_found (pats : list (Re.re * string)) (p : Re.re) (msg line : string) :
  In (p, msg) pats -> Re.search p line = true ->
  exists m, first_dynamic pats line = Some m.
Proof.
  induction pats as [|[q mq] pats IH]; intros Hin Hs; [destruct Hin|].
  simpl. destruct Hin as [E|Hin].
  - injection E as -> ->. rewrite Hs. eexists. reflexivity.
  - destruct (Re.search q line); [eexists; reflexivity|]. apply IH; assumption.
Qed.

Definition checkbox_pattern : Re.re := fst (nth 3 dynamic_patterns (Re.Nothing, EmptyString)).

Lemma checkbox_pattern_in :
  In (checkbox_pattern, snd (nth 3 dynamic_patterns (Re.Nothing, EmptyString))) dynamic_patterns.
Proof. right; right; right; left. reflexivity. Qed.

Lemma checkbox_detected (line : string) :
  (Py.contains line "[ ]" || Py.contains line "[x]") = true ->
  exists m, first_dynamic dynamic_patterns line = Some m.
Proof.
  intros H. apply (first_dynamic_found _ _ _ _ checkbox_pattern_in).
  apply orb_true_iff in H as [H|H].
  - apply (ReFacts.search_contains _ _ _ H). vm_compute. reflexivity.
  - apply (ReFacts.search_contains _ _ _ H). vm_compute. reflexivity.
Qed.

Lemma dynamic_app (content : string) (acc : list issue) :
  validate_dynamic_content content acc = (acc ++ validate_dynamic_content content [])%list.
Proof. apply loop_app. Qed.

(** the detector's issues at line [i] are those of [line_out] for the
    state reached before that line *)
Lemma dynamic_at_line (content : string) (i : nat) :
  1 <= i ->
  filter (content_warning_at i) (validate_dynamic_content content []) =
  match nth_error (Py.lines content) (i - 1) with
  | Some l => line_out (state_after None (firstn (i - 1) (Py.lines content))) l i
  | None => []
  end.
Proof.
  intros Hi. unfold validate_dynamic_content.
  pose proof (loop_at (Py.lines content) 1 None (i - 1)) as E.
  replace (1 + (i - 1)) with i in E by lia. exact E.
Qed.

(** C8, first half, for the detector: a non-fence line with "[ ]" or
    "[x]" gives exactly one content warning at its line number when it
    is outside a fenced block, none inside. *)
Theorem dynamic_checkbox_line (content : string) (i : nat) (line : string)
    (Hi : 1 <= i)
    (Hline : nth_error (Py.lines content) (i - 1) = Some line)
    (Hbox : (Py.contains line "[ ]" || Py.contains line "[x]") = true) :
  List.length (filter (content_warning_at i) (validate_dynamic_content content []))
  = if in_fenced_block (Py.lines content) i then 0 else 1.
Proof.
  rewrite (dynamic_at_line content i Hi), Hline.
  unfold in_fenced_block. rewrite Hline. unfold line_out.
  destruct (is_fence line); [reflexivity|]. simpl orb.
  rewrite skipping_state_after. simpl xorb.
  destruct (Nat.odd _); [reflexivity|].
  destruct (checkbox_detected line Hbox) as [m Hm]. rewrite Hm. reflexivity.
Qed.

(** C8, second half: at most one detector issue per line. *)
Theorem dynamic_at_most_one_per_line (content : string) (i : nat) :
  List.length (filter (content_warning_at i) (validate_dynamic_content content [])) <= 1.
Proof.
  destruct i as [|i].
  - unfold validate_dynamic_content. rewrite loop_below by lia. simpl. lia.
  - rewrite dynamic_at_line by lia.
    destruct (nth_error _ _) as [l|]; [|simpl; lia].
    unfold line_out. destruct (is_fence l); [simpl; lia|].
    destruct (skipping _); [simpl; lia|].
    destruct (first_dynamic dynamic_patterns l); simpl; lia.
Qed.

(* the other validators add no content-category warnings *)

Lemma Forall_push {A : Type} (P : A -> Prop) (xs : list A) (x : A) :
  Forall P xs -> P x -> Forall P (push xs x).
Proof. intros H Hx. unfold push. apply Forall_app. split; [exact H | constructor; auto]. Qed.

Lemma fold_left_Forall {A B : Type} (P : A -> Prop) (f : list A -> B -> list A) :
  (forall acc b, Forall P acc -> Forall P (f acc b)) ->
  forall (l : list B) (acc : list A), Forall P acc -> Forall P (fold_left f l acc).
Proof.
  intros Hf l. induction l as [|b l IH]; intros acc H; simpl; [exact H|].
  apply IH, Hf, H.
Qed.

Definition not_cw (x : issue) : Prop := is_content_warning x = false.

Ltac push_not_cw :=
  repeat match goal with
  | |- context [if ?c then _ else _] => destruct c
  | |- context [match ?x with _ => _ end] => destruct x
  end;
  simpl; repeat (apply Forall_push || assumption || reflexivity).

Lemma frontmatter_not_cw (content : string) (acc : list issue) (b : bool) :
  Forall not_cw acc -> Forall not_cw (fst (validate_frontmatter content acc b)).
Proof.
  intros H. unfold validate_frontmatter.
  destruct b; simpl; [|exact H].
  destruct (Py.startswith content "---"); simpl; [|apply Forall_push; [exact H | reflexivity]].
  destruct (find_fence (tl (Py.lines content)) 1); simpl; push_not_cw.
Qed.

Lemma structure_not_cw (content : string) (k : kind) (acc : list issue) :
  Forall not_cw acc -> Forall not_cw (validate_structure content k acc).
Proof.
  intros H. unfold validate_structure. apply fold_left_Forall.
  - intros acc' s H'. destruct (Py.contains content s); [exact H'|].
    apply Forall_push; [exact H' | reflexivity].
  - destruct (filter _ _); [apply Forall_push; [exact H | reflexivity] | exact H].
Qed.

Lemma best_practices_not_cw (content : string) (k : kind) (acc : list issue) :
  Forall not_cw acc -> Forall not_cw (validate_best_practices content k acc).
Proof.
  intros H. unfold validate_best_practices.
  destruct (line_count_targets k) as [mn mx].
  assert (H1 : Forall not_cw
    (if mx <? List.length (Py.lines content) then
       push acc (mkIssue BestPractices Warning
         ("Line count: " ++ Py.show_nat (List.length (Py.lines content)) ++ " (target: "
          ++ Py.show_nat mn ++ "-" ++ Py.show_nat mx
          ++ "). Consider using references/ for detailed content.") (LocRegion "entire file"))
     else acc)).
  { destruct (mx <? _); [apply Forall_push; [exact H | reflexivity] | exact H]. }
  destruct (bullet_sections_of content); [exact H1|].
  apply Forall_push; [exact H1 | reflexivity].
Qed.

Lemma content_not_cw (ex : exists_fn) (content : string) (acc : list issue) :
  Forall not_cw acc -> Forall not_cw (validate_content ex content acc).
Proof.
  intros H. unfold validate_content. apply fold_left_Forall; [|exact H].
  intros acc' m H'. unfold check_path.
  repeat match goal with |- context [if ?c then _ else _] => destruct c end;
    try exact H'.
  apply Forall_push; [exact H' | reflexivity].
Qed.

Lemma run_split (F : fs) (content p : string) :
  exists pre, Forall not_cw pre
    /\ run_validators F content p = (pre ++ validate_dynamic_content content [])%list.
Proof.
  unfold run_validators. eexists. split; [|apply dynamic_app].
  apply content_not_cw, best_practices_not_cw, structure_not_cw, frontmatter_not_cw.
  constructor.
Qed.

Lemma run_at_line (F : fs) (content p : string) (i : nat) :
  filter (content_warning_at i) (run_validators F content p)
  = filter (content_warning_at i) (validate_dynamic_content content []).
Proof.
  destruct (run_split F content p) as [pre [Hpre E]]. rewrite E, filter_app.
  replace (filter (content_warning_at i) pre) with (@nil issue); [reflexivity|].
  clear E. induction Hpre as [|x xs Hx _ IH]; [reflexivity|]. simpl.
  unfold not_cw, is_content_warning in Hx. unfold content_warning_at at 1.
  rewrite Hx. exact IH.
Qed.

(** C8: over the whole issue list of a run, a non-fence line holding a
    checkbox marker gets exactly one content-category warning located at
    its 1-based number when outside a fenced block and none inside; and
    no line ever gets more than one. *)
Theorem checkbox_line_one_warning (F : fs) (p content : string) (i : nat) (line : string)
    (Hi : 1 <= i)
    (Hline : nth_error (Py.lines content) (i - 1) = Some line)
    (Hbox : (Py.contains line "[ ]" || Py.contains line "[x]") = true) :
  List.length (filter (content_warning_at i) (run_validators F content p))
    = (if in_fenced_block (Py.lines content) i then 0 else 1)
  /\ forall j, List.length (filter (content_warning_at j) (run_validators F content p)) <= 1.
Proof.
  split.
  - rewrite run_at_line. apply dynamic_checkbox_line with (line := line); assumption.
  - intros j. rewrite run_at_line. apply dynamic_at_most_one_per_line.
Qed.

Definition checkbox_doc : string :=
  "- [ ] a" ++ nl_str ++ "```" ++ nl_str ++ "[x]" ++ nl_str ++ "```".

(** witness: line 1 is outside a block (one warning), line 3 inside (none) *)
Lemma checkbox_line_one_warning_witness :
  List.length (filter (content_warning_at 1) (run_validators (fs_one checkbox_doc) checkbox_doc "CLAUDE.md")) = 1
  /\ List.length (filter (content_warning_at 3) (run_validators (fs_one checkbox_doc) checkbox_doc "CLAUDE.md")) = 0.
Proof.
  split.
  - exact (proj1 (checkbox_line_one_warning (fs_one checkbox_doc) "CLAUDE.md" checkbox_doc 1 "- [ ] a"
                    (le_n 1) eq_refl eq_refl)).
  - exact (proj1 (checkbox_line_one_warning (fs_one checkbox_doc) "CLAUDE.md" checkbox_doc 3 "[x]"
                    (le_S _ _ (le_S _ _ (le_n 1))) eq_refl eq_refl)).
Defined.

End Dynamic.

(* ------------------------------------------------------------------ *)
(** ** Content / path references *)

Module Paths.
Import Validator.

Lemma prefix_lower (p s : string) :
  prefix p s = true -> prefix (Py.lower p) (Py.lower s) = true.
Proof.
  revert s. induction p as [|c p IH]; intros s H; [simpl; destruct (Py.lower s); reflexivity|].
  destruct s as [|d s]; [discriminate|]. simpl in H |- *.
  destruct (ascii_dec c d) as [<-|]; [|discriminate].
  destruct (ascii_dec (Py.lower_char c) (Py.lower_char c)) as [_|n]; [|contradiction].
  apply IH. exact H.
Qed.

Lemma contains_lower (s p : string) :
  Py.contains s p = true -> Py.contains (Py.lower s) (Py.lower p) = true.
Proof.
  induction s as [|c s IH]; intros H.
  - simpl in H |- *. rewrite orb_false_r in H |- *.
    exact (prefix_lower p EmptyString H).
  - change ((prefix p (String c s) || Py.contains s p) = true) in H.
    change ((prefix (Py.lower p) (String (Py.lower_char c) (Py.lower s))
             || Py.contains (Py.lower s) (Py.lower p)) = true).
    apply orb_true_iff in H as [H|H]; apply orb_true_iff.
    + left. exact (prefix_lower _ _ H).
    + right. exact (IH H).
Qed.

Lemma skip_patterns_lowercase : Forall (fun pat => Py.lower pat = pat) skip_patterns.
Proof. vm_compute. repeat constructor. Qed.

(** a reference that survives the exclusion test contains no excluded
    marker, in any letter case *)
Lemma survivor_has_no_marker (r : string) :
  existsb (fun x => Py.contains (Py.lower r) x) skip_patterns = false ->
  Forall (fun pat => Py.contains r pat = false /\ Py.contains (Py.lower r) pat = false)
    skip_patterns.
Proof.
  intros H. pose proof skip_patterns_lowercase as L.
  rewrite Forall_forall in L |- *. intros pat Hin.
  assert (Hl : Py.contains (Py.lower r) pat = false).
  { destruct (Py.contains (Py.lower r) pat) eqn:E; [|reflexivity].
    rewrite <- not_true_iff_false in H. exfalso. apply H.
    apply existsb_exists. exists pat. split; assumption. }
  split; [|exact Hl].
  destruct (Py.contains r pat) eqn:E; [|reflexivity].
  apply contains_lower in E. rewrite (L pat Hin) in E. congruence.
Qed.

Definition reported (content : string) (x : issue) : Prop :=
  exists m, In m (path_matches (prose_text content) None)
    /\ let r := Py.strip_by (Ascii.eqb tick) m in
       x = missing_path r
       /\ Forall (fun pat => Py.contains r pat = false /\ Py.contains (Py.lower r) pat = false)
            skip_patterns.

Lemma check_paths_fold (ex : exists_fn) (content : string) (ms : list string) (acc : list issue) :
  incl ms (path_matches (prose_text content) None) ->
  exists extra, fold_left (check_path ex) ms acc = (acc ++ extra)%list
    /\ Forall (reported content) extra.
Proof.
  revert acc. induction ms as [|m ms IH]; intros acc Hincl; simpl.
  - exists []. rewrite app_nil_r. split; [reflexivity | constructor].
  - assert (Hm : In m (path_matches (prose_text content) None)) by (apply Hincl; left; reflexivity).
    assert (Hms : incl ms (path_matches (prose_text content) None))
      by (intros y Hy; apply Hincl; right; exact Hy).
    unfold check_path at 2.
    destruct (existsb (fun x => Py.contains (Py.lower (Py.strip_by (Ascii.eqb tick) m)) x)
                skip_patterns) eqn:Hskip; [exact (IH acc Hms)|].
    destruct (existsb _ bad_chars); [exact (IH acc Hms)|].
    destruct (ex _); [exact (IH acc Hms)|].
    destruct (negb _ && _); [|exact (IH acc Hms)].
    destruct (IH (push acc (missing_path (Py.strip_by (Ascii.eqb tick) m))) Hms) as [ex' [E F]].
    rewrite E. unfold push. rewrite <- app_assoc. eexists. split; [reflexivity|].
    constructor; [|exact F].
    exists m. split; [exact Hm|]. split; [reflexivity|].
    apply survivor_has_no_marker. exact Hskip.
Qed.

(** C9: every issue the path validator adds is the missing-path issue of
    one inline code span of the prose whose text holds none of the
    excluded markers (URL schemes, command prefixes, "mcp__"/"__",
    control-flow words), neither as written nor lower-cased. *)
Theorem excluded_markers_never_reported (ex : exists_fn) (content : string)
    (issues : list issue) :
  exists extra, validate_content ex content issues = (issues ++ extra)%list
    /\ Forall (reported content) extra.
Proof.
  unfold validate_content. apply check_paths_fold. intros y Hy. exact Hy.
Qed.

(** a URL, a command and a plain missing file among the spans *)
Example excluded_markers_sample :
  validate_content (fun _ => false) "see `http://a/b`, `npx/tool` and `src/a.py`" []
  = [missing_path "src/a.py"].
Proof. vm_compute. reflexivity. Qed.

End Paths.

(* ------------------------------------------------------------------ *)
(** ** Further properties of the validator *)

Module Extras.
Import Validator Fixtures.

(** *** Each validator only appends to the shared list *)

Lemma fold_left_appends {B : Type} (f : list issue -> B -> list issue) :
  (forall acc b, f acc b = (acc ++ f [] b)%list) ->
  forall (l : list B) (acc : list issue),
    fold_left f l acc = (acc ++ fold_left f l [])%list.
Proof.
  intros Hf l. induction l as [|b l IH]; intros acc; simpl.
  - rewrite app_nil_r. reflexivity.
  - rewrite IH, (IH (f [] b)), Hf, app_assoc. reflexivity.
Qed.

Ltac appends_tac :=
  repeat match goal with
  | |- context [if ?c then _ else _] => destruct c
  | |- context [match ?x with _ => _ end] => destruct x
  end;
  unfold push; simpl; rewrite <- ?app_assoc; try reflexivity; rewrite ?app_nil_r; reflexivity.

Lemma frontmatter_appends (content : string) (acc : list issue) (b : bool) :
  fst (validate_frontmatter content acc b) = (acc ++ fst (validate_frontmatter content [] b))%list.
Proof.
  unfold validate_frontmatter. destruct b; simpl; [|rewrite app_nil_r; reflexivity].
  destruct (Py.startswith content "---"); simpl; [|reflexivity].
  destruct (find_fence (tl (Py.lines content)) 1); simpl; [|reflexivity].
  destruct (Py.contains _ "name:"), (Py.contains _ "description:"),
           (Py.contains _ "<" || Py.contains _ ">");
    unfold push; simpl; rewrite <- ?app_assoc; rewrite ?app_nil_r; reflexivity.
Qed.

Lemma structure_appends (content : string) (k : kind) (acc : list issue) :
  validate_structure content k acc = (acc ++ validate_structure content k [])%list.
Proof.
  unfold validate_structure.
  match goal with |- fold_left ?f _ _ = _ =>
    assert (Hf : forall a b, f a b = (a ++ f [] b)%list)
      by (intros a b; simpl; destruct (Py.contains content b); unfold push; simpl;
          rewrite ?app_nil_r; reflexivity);
    destruct (filter (fun line => Py.startswith line "##") (Py.lines content));
    [rewrite (fold_left_appends f Hf _ (push acc no_headings)),
             (fold_left_appends f Hf _ (push [] no_headings))
    | rewrite (fold_left_appends f Hf _ acc)]
  end;
  unfold push; simpl; rewrite ?app_nil_r, <- ?app_assoc; reflexivity.
Qed.

Lemma best_practices_appends (content : string) (k : kind) (acc : list issue) :
  validate_best_practices content k acc = (acc ++ validate_best_practices content k [])%list.
Proof.
  unfold validate_best_practices. destruct (line_count_targets k) as [mn mx].
  destruct (mx <? _), (bullet_sections_of content);
    unfold push; simpl; rewrite <- ?app_assoc; rewrite ?app_nil_r; reflexivity.
Qed.

Lemma content_appends (ex : exists_fn) (content : string) (acc : list issue) :
  validate_content ex content acc = (acc ++ validate_content ex content [])%list.
Proof.
  unfold validate_content. apply fold_left_appends.
  intros acc' m. unfold check_path.
  repeat match goal with |- context [if ?c then _ else _] => destruct c end;
    unfold push; simpl; rewrite ?app_nil_r; reflexivity.
Qed.

(** the issue list of a run is the concatenation, in order, of what each
    validator reports on its own *)
Theorem run_is_concatenation (F : fs) (content p : string) :
  let path := PPath.norm p in
  let k := detect_claude_type_from_content (fs_home F) content path in
  let req := Py.contains path "skills" || String.eqb (PPath.name path) "SKILL.md" in
  run_validators F content p =
    (fst (validate_frontmatter content [] req)
     ++ validate_structure content k []
     ++ validate_best_practices content k []
     ++ validate_content (fs_exists F) content []
     ++ validate_dynamic_content content [])%list.
Proof.
  intros path k req. unfold run_validators. fold path k req.
  rewrite Dynamic.dynamic_app, content_appends, best_practices_appends, structure_appends.
  rewrite <- !app_assoc. reflexivity.
Qed.

(** *** Categories and levels each validator emits *)

Definition has (c : category) (l : level) (x : issue) : Prop :=
  category_of x = c /\ level_of x = l.

Lemma frontmatter_category (content : string) (b : bool) :
  Forall (fun x => category_of x = Frontmatter) (fst (validate_frontmatter content [] b)).
Proof.
  unfold validate_frontmatter. destruct b; simpl; [|constructor].
  destruct (Py.startswith content "---"); simpl; [|repeat constructor].
  destruct (find_fence (tl (Py.lines content)) 1); simpl; [|repeat constructor].
  destruct (Py.contains _ "name:"), (Py.contains _ "description:"),
           (Py.contains _ "<" || Py.contains _ ">");
    unfold push; simpl; repeat constructor.
Qed.

Lemma structure_kinds (content : string) (k : kind) :
  Forall (has Structure Warning) (validate_structure content k []).
Proof.
  unfold validate_structure. apply Dynamic.fold_left_Forall.
  - intros acc s H. destruct (Py.contains content s); [exact H|].
    apply Dynamic.Forall_push; [exact H | split; reflexivity].
  - destruct (filter _ _); [|constructor].
    apply Dynamic.Forall_push; [constructor | split; reflexivity].
Qed.

Lemma best_practices_kinds (content : string) (k : kind) :
  Forall (fun x => category_of x = BestPractices /\ level_of x <> Error)
    (validate_best_practices content k []).
Proof.
  unfold validate_best_practices. destruct (line_count_targets k) as [mn mx].
  destruct (mx <? _), (bullet_sections_of content);
    unfold push; simpl; repeat constructor; discriminate.
Qed.

Lemma content_kinds (ex : exists_fn) (content : string) :
  Forall (has Content Info) (validate_content ex content []).
Proof.
  unfold validate_content. apply Dynamic.fold_left_Forall; [|constructor].
  intros acc m H. unfold check_path.
  repeat match goal with |- context [if ?c then _ else _] => destruct c end;
    try exact H.
  apply Dynamic.Forall_push; [exact H | split; reflexivity].
Qed.

Lemma dynamic_loop_kinds (ls : list string) (s : nat) (st : option bool) :
  Forall (fun x => has Content Warning x
                   /\ exists j, location_of x = LocLine j /\ s <= j < s + List.length ls)
    (dynamic_loop ls s st []).
Proof.
  revert s st. induction ls as [|l ls IH]; intros s st; [constructor|].
  rewrite Dynamic.loop_cons. apply Forall_app. split.
  - unfold Dynamic.line_out.
    destruct (is_fence l); [constructor|]. destruct (Dynamic.skipping st); [constructor|].
    destruct (first_dynamic dynamic_patterns l); constructor; [|constructor].
    split; [split; reflexivity|]. exists s. simpl. split; [reflexivity | lia].
  - eapply Forall_impl; [|apply IH].
    intros x [Hx [j [Hj Hr]]]. split; [exact Hx|]. exists j. simpl. split; [exact Hj | lia].
Qed.

(** *** Aggregation *)

Lemma count_levels_sum (l : list issue) :
  count_level Error l + count_level Warning l + count_level Info l = List.length l.
Proof.
  induction l as [|x l IH]; [reflexivity|].
  unfold count_level in *. simpl. destruct (level_of x); simpl; lia.
Qed.

(** every returned result has [errors + warnings + info == len(issues)] *)
Theorem result_counts_add_up (F : fs) (p : string) :
  match validate_file F p with
  | Returned r _ => errors r + warnings r + infos r = List.length (issues_of r)
  | Raised => True
  end.
Proof.
  unfold validate_file.
  destruct (fs_exists F (PPath.norm p)); simpl; [|reflexivity].
  destruct (fs_read F (PPath.norm p)); [|exact I]. apply count_levels_sum.
Qed.

(** only the frontmatter validator emits error-level issues *)
Theorem errors_only_from_frontmatter (F : fs) (content p : string) :
  Forall (fun x => level_of x = Error -> category_of x = Frontmatter)
    (run_validators F content p).
Proof.
  rewrite run_is_concatenation.
  repeat (apply Forall_app; split).
  - eapply Forall_impl; [|apply frontmatter_category]. intros x H _. exact H.
  - eapply Forall_impl; [|apply structure_kinds]. intros x [_ H] E. congruence.
  - eapply Forall_impl; [|apply best_practices_kinds]. intros x [_ H] E. contradiction.
  - eapply Forall_impl; [|apply content_kinds]. intros x [_ H] E. congruence.
  - eapply Forall_impl; [|apply dynamic_loop_kinds]. intros x [[_ H] _] E. congruence.
Qed.

(** a file outside any "skills" path and not named SKILL.md is always
    valid, exits 0, and gets no frontmatter issue, whatever its text *)
Theorem no_frontmatter_required_always_valid (F : fs) (p content : string)
    (Hex : fs_exists F (PPath.norm p) = true)
    (Hread : fs_read F (PPath.norm p) = Some content)
    (Hreq : (Py.contains (PPath.norm p) "skills"
             || String.eqb (PPath.name (PPath.norm p)) "SKILL.md") = false) :
  match validate_file F p with
  | Returned r code =>
      valid r = true /\ code = 0
      /\ Forall (fun x => category_of x <> Frontmatter) (issues_of r)
  | Raised => False
  end.
Proof.
  assert (Hnf : Forall (fun x => category_of x <> Frontmatter) (run_validators F content p)).
  { rewrite run_is_concatenation. simpl. rewrite Hreq. simpl.
    repeat (apply Forall_app; split).
    - eapply Forall_impl; [|apply structure_kinds]. intros x [H _]. rewrite H. discriminate.
    - eapply Forall_impl; [|apply best_practices_kinds]. intros x [H _]. rewrite H. discriminate.
    - eapply Forall_impl; [|apply content_kinds]. intros x [H _]. rewrite H. discriminate.
    - eapply Forall_impl; [|apply dynamic_loop_kinds]. intros x [[H _] _]. rewrite H. discriminate. }
  assert (He : count_level Error (run_validators F content p) = 0).
  { pose proof (errors_only_from_frontmatter F content p) as Herr.
    unfold count_level. apply length_zero_iff_nil, (FrontmatterStructure.filter_nil_iff (fun i => level_eqb (level_of i) Error)).
    rewrite Forall_forall in Herr, Hnf |- *. intros x Hx.
    specialize (Herr x Hx). specialize (Hnf x Hx).
    destruct (level_of x); try reflexivity. exfalso. apply Hnf, Herr. reflexivity. }
  unfold validate_file. rewrite Hex. simpl. rewrite Hread. simpl.
  rewrite He. simpl. split; [reflexivity|]. split; [reflexivity|]. exact Hnf.
Qed.

Lemma no_frontmatter_required_always_valid_witness :
  match validate_file (fs_one "- [ ] x") "CLAUDE.md" with
  | Returned r code =>
      valid r = true /\ code = 0
      /\ Forall (fun x => category_of x <> Frontmatter) (issues_of r)
  | Raised => False
  end.
Proof.
  apply (no_frontmatter_required_always_valid (fs_one "- [ ] x") "CLAUDE.md" "- [ ] x");
    vm_compute; reflexivity.
Defined.

(** *** Frontmatter *)

(** the frontmatter validator appends at most three issues, at most one
    of them an error, and returns [True] exactly when it appended none *)
Theorem frontmatter_result_tracks_errors (content : string) (acc : list issue) (b : bool) :
  exists extra,
    fst (validate_frontmatter content acc b) = (acc ++ extra)%list
    /\ List.length extra <= 3 /\ count_level Error extra <= 1
    /\ snd (validate_frontmatter content acc b) = (count_level Error extra =? 0).
Proof.
  exists (fst (validate_frontmatter content [] b)).
  split; [apply frontmatter_appends|].
  unfold validate_frontmatter. destruct b; simpl; [|repeat split; auto].
  destruct (Py.startswith content "---"); simpl; [|repeat split; auto].
  destruct (find_fence (tl (Py.lines content)) 1); simpl; [|repeat split; auto].
  destruct (Py.contains _ "name:"), (Py.contains _ "description:"),
           (Py.contains _ "<" || Py.contains _ ">");
    simpl; repeat split; auto.
Qed.

Lemma find_fence_some (xs : list string) (i e : nat) :
  find_fence xs i = Some e ->
  exists l, i <= e /\ nth_error xs (e - i) = Some l /\ Py.strip l = "---".
Proof.
  revert i. induction xs as [|x xs IH]; intros i H; [discriminate|].
  simpl in H. destruct (String.eqb_spec (Py.strip x) "---") as [E|_].
  - injection H as <-. exists x. rewrite Nat.sub_diag. split; [lia|]. split; [reflexivity | exact E].
  - destruct (IH (S i) H) as [l [Hle [Hn Hs]]]. exists l. split; [lia|].
    replace (e - i) with (S (e - S i)) by lia. split; [exact Hn | exact Hs].
Qed.

Lemma find_fence_found (xs : list string) (i k : nat) (l : string) :
  nth_error xs k = Some l -> Py.strip l = "---" -> find_fence xs i <> None.
Proof.
  revert i k. induction xs as [|x xs IH]; intros i k Hn Hs; [destruct k; discriminate|].
  simpl. destruct (String.eqb_spec (Py.strip x) "---"); [discriminate|].
  destruct k as [|k]; [injection Hn as ->; contradiction|].
  exact (IH (S i) k Hn Hs).
Qed.

(** required frontmatter that opens with "---" is accepted (the
    validator returns [True]) exactly when some later line strips to
    "---" *)
Theorem frontmatter_accepted_iff_closing (content : string) (acc : list issue)
    (Hopen : Py.startswith content "---" = true) :
  snd (validate_frontmatter content acc true) = true
  <-> exists e l, 1 <= e /\ nth_error (Py.lines content) e = Some l /\ Py.strip l = "---".
Proof.
  unfold validate_frontmatter. simpl. rewrite Hopen. simpl.
  destruct (Py.lines content) as [|l0 ls] eqn:HL.
  { simpl. split; [discriminate|]. intros [e [l [_ [H _]]]]. destruct e; discriminate. }
  simpl. destruct (find_fence ls 1) as [e|] eqn:Hf.
  - split; [intros _|reflexivity].
    destruct (find_fence_some ls 1 e Hf) as [l [Hle [Hn Hs]]].
    exists e, l. split; [exact Hle|]. split; [|exact Hs].
    destruct e as [|e]; [lia|]. simpl. replace e with (S e - 1) by lia. exact Hn.
  - split; [discriminate|]. intros [e [l [Hle [Hn Hs]]]].
    destruct e as [|e]; [lia|]. simpl in Hn.
    exfalso. exact (find_fence_found ls 1 e l Hn Hs Hf).
Qed.

Lemma frontmatter_accepted_iff_closing_witness :
  snd (validate_frontmatter ("---" ++ nl_str ++ "name: a" ++ nl_str ++ "---") [] true) = true.
Proof.
  apply (frontmatter_accepted_iff_closing ("---" ++ nl_str ++ "name: a" ++ nl_str ++ "---") []
           eq_refl).
  exists 2, "---". split; [repeat constructor|]. split; reflexivity.
Defined.


(** *** Structure and best practices *)

Definition purpose_missing : issue :=
  mkIssue Structure Warning "Missing required section: ## Purpose" (LocRegion "sections").

(** the only required-section warning is the rules kind's "## Purpose",
    emitted exactly when that text appears nowhere in the document: every
    issue of the structural validator is the no-headings warning or that
    one *)
Theorem required_section_warning (content : string) (k : kind) :
  Forall (fun x => x = no_headings \/ x = purpose_missing) (validate_structure content k [])
  /\ (In purpose_missing (validate_structure content k [])
      <-> k = Rules /\ Py.contains content "## Purpose" = false).
Proof.
  unfold validate_structure.
  destruct k;
    destruct (filter (fun line => Py.startswith line "##") (Py.lines content));
    simpl; try destruct (Py.contains content "## Purpose"); simpl; (split;
    [repeat (apply Forall_cons; [first [left; reflexivity | right; reflexivity]|]);
       apply Forall_nil
    |split; intros H; intuition (try discriminate; try reflexivity; try congruence)]).
Qed.

(** the best-practices validator warns exactly when the line count
    exceeds the kind's maximum; a count below the minimum is not flagged *)
Theorem line_count_warning_iff (content : string) (k : kind) :
  (exists x, In x (validate_best_practices content k []) /\ level_of x = Warning)
  <-> snd (line_count_targets k) < List.length (Py.lines content).
Proof.
  unfold validate_best_practices.
  destruct (line_count_targets k) as [mn mx]. simpl snd.
  destruct (mx <? List.length (Py.lines content)) eqn:H;
    [apply Nat.ltb_lt in H | apply Nat.ltb_ge in H];
    destruct (bullet_sections_of content); unfold push; simpl.
  - split; [intros _; exact H | intros _; eexists; split; [left; reflexivity | reflexivity]].
  - split; [intros _; exact H | intros _; eexists; split; [left; reflexivity | reflexivity]].
  - split; [intros [x [[] _]] | lia].
  - split; [intros [x [[E|[]] Hx]]; subst x; discriminate Hx | lia].
Qed.

Definition pipe_bullet (line : string) : bool :=
  Py.startswith (Py.strip line) "- " && Py.contains line "|".

Definition bp_inv (st : list (list string) * list string * bool) : Prop :=
  let '(bs, cur, _) := st in
  Forall (fun sec => 3 <= List.length sec /\ Forall (fun l => pipe_bullet l = true) sec) bs
  /\ Forall (fun l => pipe_bullet l = true) cur.

Lemma bp_step_inv (st : list (list string) * list string * bool) (line : string) :
  bp_inv st -> bp_inv (bp_step st line).
Proof.
  destruct st as [[bs cur] b]. intros [Hbs Hcur]. unfold bp_step.
  destruct (is_fence line); [split; assumption|].
  destruct b; [split; assumption|].
  fold (pipe_bullet line). destruct (pipe_bullet line) eqn:Hp.
  - split; [exact Hbs | apply Dynamic.Forall_push; assumption].
  - destruct cur as [|c cs]; [split; assumption|].
    split; [|constructor].
    destruct (3 <=? List.length (c :: cs)) eqn:H3; [|exact Hbs].
    apply Dynamic.Forall_push; [exact Hbs|]. split; [apply Nat.leb_le; exact H3 | exact Hcur].
Qed.

(** every run counted by the list-as-table heuristic has at least three
    lines, each a "- " bullet (after stripping) containing "|" *)
Theorem bullet_sections_wellformed (content : string) :
  Forall (fun sec => 3 <= List.length sec /\ Forall (fun l => pipe_bullet l = true) sec)
    (bullet_sections_of content).
Proof.
  unfold bullet_sections_of.
  assert (H : forall ls st, bp_inv st -> bp_inv (fold_left bp_step ls st)).
  { induction ls as [|l ls IH]; intros st Hst; [exact Hst|]. apply IH, bp_step_inv, Hst. }
  specialize (H (Py.lines content) ([], [], false) (conj (Forall_nil _) (Forall_nil _))).
  destruct (fold_left bp_step (Py.lines content) ([], [], false)) as [[bs cur] b].
  exact (proj1 H).
Qed.

(** *** Path references *)

Lemma existsb_false_Forall {A : Type} (f : A -> bool) (l : list A) :
  existsb f l = false -> Forall (fun x => f x = false) l.
Proof.
  induction l as [|x l IH]; intros H; [constructor|].
  simpl in H. apply orb_false_iff in H as [H1 H2]. constructor; [exact H1 | exact (IH H2)].
Qed.

(** every path the content validator reports has fewer than three "/",
    exists neither in the working directory nor under any of the five
    base directories, and contains none of the excluded characters *)
Theorem reported_paths_shallow_and_missing (ex : exists_fn) (content : string) :
  Forall (fun x => exists r, x = missing_path r
            /\ Py.count_char "/"%char r < 3
            /\ ex (PPath.norm r) = false
            /\ Forall (fun b => ex (PPath.join b r) = false) base_dirs
            /\ Forall (fun c => Py.contains r c = false) bad_chars)
    (validate_content ex content []).
Proof.
  unfold validate_content. apply Dynamic.fold_left_Forall; [|constructor].
  intros acc m H. unfold check_path.
  set (r := Py.strip_by (Ascii.eqb tick) m).
  destruct (existsb _ skip_patterns); [exact H|].
  destruct (existsb (fun c => Py.contains r c) bad_chars) eqn:Hbad; [exact H|].
  destruct (ex (PPath.norm r)) eqn:Hcwd; [exact H|].
  destruct (negb (existsb (fun base_dir => ex (PPath.join base_dir r)) base_dirs)
            && (Py.count_char "/"%char r <? 3)) eqn:Hc; [|exact H].
  apply andb_true_iff in Hc as [Hf Hs]. apply negb_true_iff in Hf.
  apply Dynamic.Forall_push; [exact H|].
  exists r. split; [reflexivity|]. split; [apply Nat.ltb_lt; exact Hs|].
  split; [exact Hcwd|]. split; [exact (existsb_false_Forall _ _ Hf)|].
  exact (existsb_false_Forall _ _ Hbad).
Qed.

(** *** Dynamic content *)

(** no line that is a fence line or lies inside a fenced block is ever
    reported, whichever pattern it matches *)
Theorem fenced_lines_never_flagged (content : string) (i : nat)
    (Hi : 1 <= i) (Hin : Dynamic.in_fenced_block (Py.lines content) i = true) :
  filter (Dynamic.content_warning_at i) (validate_dynamic_content content []) = [].
Proof.
  rewrite (Dynamic.dynamic_at_line content i Hi).
  unfold Dynamic.in_fenced_block in Hin.
  destruct (nth_error (Py.lines content) (i - 1)) as [l|]; [|reflexivity].
  unfold Dynamic.line_out. destruct (is_fence l); [reflexivity|].
  simpl in Hin. rewrite Dynamic.skipping_state_after. simpl xorb. rewrite Hin. reflexivity.
Qed.

Lemma fenced_lines_never_flagged_witness :
  filter (Dynamic.content_warning_at 2)
    (validate_dynamic_content ("```" ++ nl_str ++ "[x] TODO:" ++ nl_str ++ "```") []) = [].
Proof.
  apply fenced_lines_never_flagged; [repeat constructor | vm_compute; reflexivity].
Defined.

(** every detector issue is a content-category warning located at a
    line number between 1 and the number of lines *)
Theorem dynamic_issues_located (content : string) :
  Forall (fun x => category_of x = Content /\ level_of x = Warning
                   /\ exists j, location_of x = LocLine j
                                /\ 1 <= j <= List.length (Py.lines content))
    (validate_dynamic_content content []).
Proof.
  eapply Forall_impl; [|apply (dynamic_loop_kinds (Py.lines content) 1 None)].
  intros x [[Hc Hl] [j [Hj Hr]]]. split; [exact Hc|]. split; [exact Hl|].
  exists j. split; [exact Hj | lia].
Qed.


Definition no_tick (s : string) : Prop := Py.count_char tick s = 0.

Lemma count_char_app (c : ascii) (s t : string) :
  Py.count_char c (s ++ t) = Py.count_char c s + Py.count_char c t.
Proof. induction s as [|d s IH]; simpl; [reflexivity|]. rewrite IH. lia. Qed.

Lemma split_no_tick (s : string) :
  no_tick s -> Forall no_tick (Py.split_on Py.nl s).
Proof.
  unfold no_tick. induction s as [|c s IH]; intros H; simpl; [repeat constructor|].
  change ((if Ascii.eqb tick c then 1 else 0) + Py.count_char tick s = 0) in H.
  destruct (Ascii.eqb tick c) eqn:Ht; [discriminate H|].
  simpl in H. specialize (IH H).
  destruct (Py.split_on Py.nl s) as [|w ws]; [constructor|].
  inversion IH as [|? ? Hw Hws]; subst.
  destruct (Ascii.eqb c Py.nl).
  - constructor; [reflexivity | exact IH].
  - constructor; [|exact Hws].
    change ((if Ascii.eqb tick c then 1 else 0) + Py.count_char tick w = 0).
    rewrite Ht. exact Hw.
Qed.

Lemma join_no_tick (xs : list string) : Forall no_tick xs -> no_tick (Py.join_nl xs).
Proof.
  unfold no_tick. induction xs as [|x xs IH]; intros H; [reflexivity|].
  inversion H as [|? ? Hx Hxs]; subst.
  destruct xs as [|y ys]; [exact Hx|].
  change (Py.count_char tick (x ++ String Py.nl (Py.join_nl (y :: ys))) = 0).
  rewrite count_char_app.
  change (Py.count_char tick x + ((if Ascii.eqb tick Py.nl then 1 else 0)
          + Py.count_char tick (Py.join_nl (y :: ys))) = 0).
  rewrite (IH Hxs), Hx. reflexivity.
Qed.

Lemma prose_no_tick (content : string) : no_tick content -> no_tick (prose_text content).
Proof.
  intros H. unfold prose_text. apply join_no_tick.
  pose proof (split_no_tick content H) as HL. unfold Py.lines.
  assert (G : forall ls st, Forall no_tick ls -> Forall no_tick (snd st) ->
                Forall no_tick (snd (fold_left prose_step ls st))).
  { induction ls as [|l ls IH]; intros [[b1 b2] pr] Hls Hpr; [exact Hpr|].
    inversion Hls as [|? ? Hl Hls']; subst. simpl. apply IH; [exact Hls'|].
    unfold prose_step.
    repeat match goal with |- context [if ?c then _ else _] => destruct c end;
      simpl; try exact Hpr.
    apply Dynamic.Forall_push; assumption. }
  apply G; [exact HL | constructor].
Qed.

Lemma path_matches_no_tick (text : string) : no_tick text -> path_matches text None = [].
Proof.
  unfold no_tick. induction text as [|c t IH]; intros H; [reflexivity|].
  change ((if Ascii.eqb tick c then 1 else 0) + Py.count_char tick t = 0) in H.
  simpl. destruct (Ascii.eqb c tick) eqn:E.
  - apply Ascii.eqb_eq in E. subst c. rewrite Ascii.eqb_refl in H. discriminate H.
  - apply IH. destruct (Ascii.eqb tick c); [discriminate H | exact H].
Qed.

(** path references are only looked for in inline code: a document with
    no backquote gets no path issue *)
Theorem no_backquote_no_path_issue (ex : exists_fn) (content : string) (issues : list issue)
    (H : Py.count_char tick content = 0) :
  validate_content ex content issues = issues.
Proof.
  unfold validate_content. rewrite (path_matches_no_tick _ (prose_no_tick content H)).
  reflexivity.
Qed.

Lemma no_backquote_no_path_issue_witness :
  validate_content (fun _ => false) "see src/a.py and docs/x.md" [] = [].
Proof. apply no_backquote_no_path_issue. reflexivity. Defined.

End Extras.
